(** * Kubernetes test helpers (package [kubernetes_test_functions])

    A shallow embedding of [kubernetes-test-functions/main.go]: twelve check
    functions that fetch or receive a Kubernetes object, compare one field
    with an expectation and record the verdict on a [*testing.T].

    The Go runtime and the libraries the package calls are modelled only as
    far as the package uses them:
    - a call either returns or panics; [t.Logf] and [t.Errorf] append one
      record to the output of the test handle;
    - [fmt]'s [%v] verb for strings and integers;
    - the client-go [Clientset] as a record of fetch functions returning
      an error or an object;
    - the [regexp] package as an interface ([Compile], [MatchString]);
    - [metav1.Time] as an instant on the time line. *)

From Stdlib Require Import ZArith Ascii String.
From stdpp Require Import gmap strings list pretty.

Open Scope Z_scope.

(** ** Panics and the test handle *)

(** The two ways a function of this package panics: [panic(err.Error())],
    whose value is the error message, and the runtime's index check. *)
Inductive panic_value : Type :=
  | PanicString (msg : string)
  | IndexOutOfRange (index len : nat).

(** What [t.Logf] and [t.Errorf] leave on the test handle: the formatted
    message, without the file and line that [testing] puts in front when it
    prints.  [Errorf] is [Logf] followed by [Fail]: the record remembers
    which one it was. *)
Inductive record : Type :=
  | LogRecord (msg : string)
  | ErrorRecord (msg : string).

Definition message (r : record) : string :=
  match r with LogRecord m | ErrorRecord m => m end.

Definition is_success (r : record) : bool :=
  match r with LogRecord _ => true | ErrorRecord _ => false end.

(** The state of a [*testing.T]: the records written so far, oldest first. *)
Abbreviation T := (list record).

(** The result of running a function on a test handle: it returned, or it
    panicked; either way the handle holds what was recorded until then. *)
Inductive outcome (A : Type) : Type :=
  | Returned (a : A) (t : T)
  | Panicked (v : panic_value) (t : T).
Arguments Returned {A} a t.
Arguments Panicked {A} v t.

Definition handle {A} (o : outcome A) : T :=
  match o with Returned _ t | Panicked _ t => t end.

Definition M (A : Type) : Type := T → outcome A.

Definition ret {A} (a : A) : M A := λ t, Returned a t.

Definition bind {A B} (m : M A) (k : A → M B) : M B :=
  λ t, match m t with
       | Returned a t' => k a t'
       | Panicked v t' => Panicked v t'
       end.

Definition panic {A} (v : panic_value) : M A := λ t, Panicked v t.

#[global] Instance M_ret : MRet M := @ret.
#[global] Instance M_bind : MBind M := λ A B k m, bind m k.

(** ** fmt: the [%v] verb *)

(** The operands the package formats: strings (also the named string types
    [DeploymentConditionType], [ConditionStatus]) and integers ([int],
    [int32]). *)
Inductive operand : Type :=
  | VString (s : string)
  | VInt (n : Z).

Definition format_v (a : operand) : string :=
  match a with
  | VString s => s
  | VInt n => pretty n
  end.

(** [fmt.Sprintf] for formats whose only verb is [%v].  A verb without an
    operand prints [%!v(MISSING)], a lone [%] at the end [%!(NOVERB)], as in
    Go.  Operands left over are dropped here (Go appends an [%!(EXTRA ...)]
    note); no call of the package has any. *)
Fixpoint Sprintf (format : string) (a : list operand) : string :=
  match format with
  | EmptyString => EmptyString
  | String c rest =>
      if Ascii.eqb c "%"%char then
        match rest with
        | EmptyString => "%!(NOVERB)"
        | String d rest' =>
            if Ascii.eqb d "v"%char then
              match a with
              | x :: a' => format_v x +:+ Sprintf rest' a'
              | [] => "%!v(MISSING)" +:+ Sprintf rest' []
              end
            else String c (Sprintf rest a)
        end
      else String c (Sprintf rest a)
  end.

Definition Logf (format : string) (a : list operand) : M unit :=
  λ t, Returned () (t ++ [LogRecord (Sprintf format a)]).

Definition Errorf (format : string) (a : list operand) : M unit :=
  λ t, Returned () (t ++ [ErrorRecord (Sprintf format a)]).

(** [strings.Contains]: [substr] occurs in [s]. *)
Fixpoint Contains (s substr : string) : bool :=
  String.prefix substr s ||
  match s with
  | EmptyString => false
  | String _ s' => Contains s' substr
  end.

(** ** Kubernetes objects, as far as the package reads them *)

(** [metav1.Time]: an instant, in nanoseconds since the Unix epoch. *)
Definition Time : Type := Z.

(** [time.Time.Before]: strictly earlier. *)
Definition time_Before (t u : Time) : bool := bool_decide (t < u).

(** [metav1.Time.Before] on two pointers: false as soon as one is nil. *)
Definition Before (t u : option Time) : bool :=
  match t, u with
  | Some t', Some u' => time_Before t' u'
  | _, _ => false
  end.

Record ObjectMeta : Type := {
  Name : string;
  CreationTimestamp : Time
}.

Record Deployment : Type := { Deployment_ObjectMeta : ObjectMeta }.
Record DeploymentList : Type := { Items : list Deployment }.

Record DeploymentCondition : Type := {
  cond_Type : string;    (* v1.DeploymentConditionType *)
  cond_Status : string   (* v1core.ConditionStatus *)
}.

Record NamespaceStatus : Type := { Phase : string (* v1core.NamespacePhase *) }.
Record Namespace : Type := {
  Namespace_ObjectMeta : ObjectMeta;
  Namespace_Status : NamespaceStatus
}.

Record ServiceAccount : Type := { ServiceAccount_ObjectMeta : ObjectMeta }.
Record Role : Type := { Role_ObjectMeta : ObjectMeta }.
Record RoleBinding : Type := { RoleBinding_ObjectMeta : ObjectMeta }.
Record ClusterRole : Type := { ClusterRole_ObjectMeta : ObjectMeta }.
Record ClusterRoleBinding : Type := { ClusterRoleBinding_ObjectMeta : ObjectMeta }.

(** ** The API client *)

(** A Go [error], by the message [err.Error()] returns. *)
Definition error : Type := string.

(** The calls the package makes on [*kubernetes.Clientset].  Each returns
    Go's pair (object, err) as a sum: [inl err] when [err != nil].
    Namespaced getters take the namespace first, then the name, as in
    [clientset.AppsV1().Deployments(namespace).Get(name, ...)]. *)
Record Clientset : Type := {
  ListDeployments : string → error + DeploymentList;
  GetDeployment : string → string → error + Deployment;
  GetNamespace : string → error + Namespace;
  GetServiceAccount : string → string → error + ServiceAccount;
  GetRole : string → string → error + Role;
  GetRoleBinding : string → string → error + RoleBinding;
  GetClusterRole : string → error + ClusterRole;
  GetClusterRoleBinding : string → error + ClusterRoleBinding
}.

(** [if err != nil { panic(err.Error()) }] *)
Definition panic_on_error {A} (r : error + A) : M A :=
  match r with
  | inl err => panic (PanicString err)
  | inr a => mret a
  end.

(** [s[i]] with the runtime's bounds check. *)
Definition index {A} (s : list A) (i : nat) : M A :=
  match s !! i with
  | Some x => mret x
  | None => panic (IndexOutOfRange i (length s))
  end.

(** ** The regexp package, as an interface *)

Class RegexpLib : Type := {
  Regexp : Type;
  Compile : string → error + Regexp;
  MatchString : Regexp → string → bool
}.

(** ** The twelve checks

    Each takes the arguments of the Go function but [t], which is the state
    the monad threads.  The five checks that call [metav1.Now()] take the
    instant the clock shows at that call as [now]. *)

Section Checks.
Context `{RegexpLib}.

Definition ExpectedDeploymentCount (clientset : Clientset) (namespace : string)
    (expectedCount : Z) : M unit :=
  deployments ← panic_on_error (ListDeployments clientset namespace);
  let actualCount := Z.of_nat (length (Items deployments)) in
  if bool_decide (actualCount = expectedCount) then
    Logf "The expected number of Deployments exist in the '%v' namespace.  Expected %v, got %v."
      [VString namespace; VInt expectedCount; VInt actualCount]
  else
    Errorf "An unexpected number of Deployments exist in the '%v' namespace.  Expected %v, got %v."
      [VString namespace; VInt expectedCount; VInt actualCount].

Definition DeploymentExists (clientset : Clientset) (name namespace : string) : M unit :=
  deployment ← panic_on_error (GetDeployment clientset namespace name);
  let actualName := Name (Deployment_ObjectMeta deployment) in
  if bool_decide (actualName = name) then
    Logf "Jenkins Deployment exists with the expected name.  Expected %v, got %v."
      [VString name; VString actualName]
  else
    Errorf "Jenkins Deployment does not exist with the expected name.  Expected %v, got %v."
      [VString name; VString actualName].

(** [annotations[name]]: the zero value, the empty string, for a key that is
    not in the map (or a nil map). *)
Definition map_index (annotations : gmap string string) (name : string) : string :=
  default EmptyString (annotations !! name).

Definition AnnotationsEqual (annotations : gmap string string) (name expectedValue : string)
    : M unit :=
  let value := map_index annotations name in
  if bool_decide (expectedValue = value) then
    Logf "Annotation %v exists with its expected value.  Expected %v, got %v."
      [VString name; VString expectedValue; VString value]
  else
    Errorf "Annotation %v does not exist with its expected value.  Expected %v, got %v."
      [VString name; VString expectedValue; VString value].

Definition AnnotationsMatchPattern (annotations : gmap string string)
    (name expectedPattern : string) : M unit :=
  let value := map_index annotations name in
  pattern ← panic_on_error (Compile expectedPattern);
  if MatchString pattern value then
    Logf "Annotation %v exists and matches its expected pattern.  Expected %v, got %v."
      [VString name; VString expectedPattern; VString value]
  else
    Errorf "Annotation %v does not exist and match its expected pattern.  Expected %v, got %v."
      [VString name; VString expectedPattern; VString value].

(** The loop of [ConditionStatusMet]: [matches] grows by [append] at each
    condition of the requested type. *)
Definition collect_matches (conditions : list DeploymentCondition) (conditionType : string)
    : list DeploymentCondition :=
  foldl (λ matches condition,
           if bool_decide (cond_Type condition = conditionType)
           then matches ++ [condition] else matches)
        [] conditions.

Definition ConditionStatusMet (conditions : list DeploymentCondition)
    (conditionType expectedStatus : string) : M unit :=
  let matches := collect_matches conditions conditionType in
  first ← index matches 0;
  let status := cond_Status first in
  if bool_decide (status = expectedStatus) then
    Logf "Deployment condition type %v has its expected status.  Expected %v, got %v."
      [VString conditionType; VString expectedStatus; VString status]
  else
    Errorf "Deployment condition type %v does not have its expected status.  Expected %v, got %v."
      [VString conditionType; VString expectedStatus; VString status].

Definition ReplicaCountAsExpected (expectedReplicas actualReplicas : Z) (description : string)
    : M unit :=
  if bool_decide (expectedReplicas = actualReplicas) then
    Logf "Jenkins Deployment has expected %v.  Expected %v, got %v."
      [VString description; VInt expectedReplicas; VInt actualReplicas]
  else
    Errorf "Jenkins Deployment has unexpected %v.  Expected %v, got %v."
      [VString description; VInt expectedReplicas; VInt actualReplicas].

Definition NamespaceExists (clientset : Clientset) (name : string) : M unit :=
  namespace ← panic_on_error (GetNamespace clientset name);
  let status := "Active" in
  if bool_decide (Phase (Namespace_Status namespace) = status) then
    Logf "Cluster has a namespace named %v." [VString name]
  else
    Errorf "Cluster does not have a namespace named %v." [VString name].

Definition ServiceAccountExists (clientset : Clientset) (now : Time) (name namespace : string)
    : M unit :=
  serviceAccount ← panic_on_error (GetServiceAccount clientset namespace name);
  if Before (Some (CreationTimestamp (ServiceAccount_ObjectMeta serviceAccount))) (Some now) then
    Logf "A ServiceAccount named '%v' exists in the '%v' namespace."
      [VString name; VString namespace]
  else
    Errorf "A ServiceAccount named '%v' does not exist in the '%v' namespace."
      [VString name; VString namespace].

Definition RoleExists (clientset : Clientset) (now : Time) (name namespace : string) : M unit :=
  role ← panic_on_error (GetRole clientset namespace name);
  if Before (Some (CreationTimestamp (Role_ObjectMeta role))) (Some now) then
    Logf "A Role named '%v' exists in the '%v' namespace." [VString name; VString namespace]
  else
    Errorf "A Role named '%v' does not exist in the '%v' namespace."
      [VString name; VString namespace].

Definition RoleBindingExists (clientset : Clientset) (now : Time) (name namespace : string)
    : M unit :=
  role ← panic_on_error (GetRoleBinding clientset namespace name);
  if Before (Some (CreationTimestamp (RoleBinding_ObjectMeta role))) (Some now) then
    Logf "A RoleBinding object named '%v' exists in the '%v' namespace."
      [VString name; VString namespace]
  else
    Errorf "A RoleBinding object named '%v' does not exist in the '%v' namespace."
      [VString name; VString namespace].

Definition ClusterRoleExists (clientset : Clientset) (now : Time) (name : string) : M unit :=
  role ← panic_on_error (GetClusterRole clientset name);
  if Before (Some (CreationTimestamp (ClusterRole_ObjectMeta role))) (Some now) then
    Logf "A ClusterRole named '%v' exists." [VString name]
  else
    Errorf "A ClusterRole named '%v' does not exist." [VString name].

Definition ClusterRoleBindingExists (clientset : Clientset) (now : Time) (name : string)
    : M unit :=
  role ← panic_on_error (GetClusterRoleBinding clientset name);
  if Before (Some (CreationTimestamp (ClusterRoleBinding_ObjectMeta role))) (Some now) then
    Logf "A ClusterRoleBinding object named '%v' exists." [VString name]
  else
    Errorf "A ClusterRoleBinding object named '%v' does not exist." [VString name].

End Checks.

(** ** A regular-expression engine for a fragment of the regexp syntax

    An implementation of the [RegexpLib] interface that the checks can be
    run on.  It covers ASCII patterns built from literals, [.], the
    repetitions [*], [+], [?] (with the non-greedy suffix [?]), [|],
    groups and escaped punctuation, and reports the syntax errors of that
    fragment with the messages of Go's parser.  Syntax outside the fragment
    (classes, counted repetition, anchors, flags, escapes of letters and
    digits, non-ASCII bytes) is refused as unsupported, and subject strings
    are read byte by byte: the engine stands for the library on ASCII
    patterns of the fragment and ASCII subjects only. *)
Module Fragment.

Inductive re : Type :=
  | NoMatch
  | EmptyMatch
  | Literal (c : ascii)
  | AnyCharNotNL
  | Concat (r s : re)
  | Alternate (r s : re)
  | Star (r : re).

Fixpoint nullable (r : re) : bool :=
  match r with
  | NoMatch | Literal _ | AnyCharNotNL => false
  | EmptyMatch | Star _ => true
  | Concat r s => nullable r && nullable s
  | Alternate r s => nullable r || nullable s
  end.

(** The strings [w] with [c w] in the language of [r]. *)
Fixpoint deriv (c : ascii) (r : re) : re :=
  match r with
  | NoMatch | EmptyMatch => NoMatch
  | Literal d => if Ascii.eqb c d then EmptyMatch else NoMatch
  | AnyCharNotNL => if Ascii.eqb c "010"%char then NoMatch else EmptyMatch
  | Concat r s =>
      Alternate (Concat (deriv c r) s) (if nullable r then deriv c s else NoMatch)
  | Alternate r s => Alternate (deriv c r) (deriv c s)
  | Star r => Concat (deriv c r) (Star r)
  end.

(** Some prefix of [s] is in the language of [r]. *)
Fixpoint match_prefix (r : re) (s : string) : bool :=
  nullable r ||
  match s with
  | EmptyString => false
  | String c s' => match_prefix (deriv c r) s'
  end.

(** Unanchored search: some substring of [s] is in the language of [r]. *)
Fixpoint search (r : re) (s : string) : bool :=
  match_prefix r s ||
  match s with
  | EmptyString => false
  | String _ s' => search r s'
  end.

(** What the engine is to compute: the strings in the language of [r]. *)
Inductive matches : re → string → Prop :=
  | matches_empty : matches EmptyMatch EmptyString
  | matches_literal c : matches (Literal c) (String c EmptyString)
  | matches_any c : c ≠ "010"%char → matches AnyCharNotNL (String c EmptyString)
  | matches_concat r s u v :
      matches r u → matches s v → matches (Concat r s) (u +:+ v)
  | matches_left r s u : matches r u → matches (Alternate r s) u
  | matches_right r s u : matches s u → matches (Alternate r s) u
  | matches_star_done r : matches (Star r) EmptyString
  | matches_star_more r u v :
      matches r u → matches (Star r) v → matches (Star r) (u +:+ v).

(** *** The parser *)

(** One open group: the alternatives already closed by [|] and the atoms
    of the concatenation being read, latest first in both. *)
Record frame : Type := { alts : list re; atoms : list re }.

Definition empty_frame : frame := {| alts := []; atoms := [] |}.

Definition concat (atoms : list re) : re :=
  match atoms with
  | [] => EmptyMatch
  | r :: rs => foldl (λ acc x, Concat x acc) r rs
  end.

Definition alternate (f : frame) : re :=
  foldl (λ acc x, Alternate x acc) (concat (atoms f)) (alts f).

Definition push (r : re) (f : frame) : frame :=
  {| alts := alts f; atoms := r :: atoms f |}.

Definition vertical_bar (f : frame) : frame :=
  {| alts := concat (atoms f) :: alts f; atoms := [] |}.

Inductive repetition : Type := OpStar | OpPlus | OpQuest.

Definition repetition_of (c : ascii) : option repetition :=
  if Ascii.eqb c "*"%char then Some OpStar
  else if Ascii.eqb c "+"%char then Some OpPlus
  else if Ascii.eqb c "?"%char then Some OpQuest
  else None.

Definition repeated (op : repetition) (r : re) : re :=
  match op with
  | OpStar => Star r
  | OpPlus => Concat r (Star r)
  | OpQuest => Alternate r EmptyMatch
  end.

Definition syntax_error (code expr : string) : error :=
  "error parsing regexp: " +:+ code +:+ ": `" +:+ expr +:+ "`".

Definition unsupported : error := "pattern outside the fragment".

(** [p.repeat]: [text] is the operator as written, [lastRepeat] the
    operator just before it, empty if the previous token was none. *)
Definition repeat (op : repetition) (text lastRepeat : string) (f : frame) : error + frame :=
  if negb (String.eqb lastRepeat EmptyString) then
    inl (syntax_error "invalid nested repetition operator" (lastRepeat +:+ text))
  else
    match atoms f with
    | [] => inl (syntax_error "missing argument to repetition operator" text)
    | r :: rs => inr {| alts := alts f; atoms := repeated op r :: rs |}
    end.

Definition isalnum (c : ascii) : bool :=
  let n := Ascii.N_of_ascii c in
  ((48 <=? n) && (n <=? 57) || (65 <=? n) && (n <=? 90) || (97 <=? n) && (n <=? 122))%N.

Definition in_fragment (c : ascii) : bool :=
  (Ascii.N_of_ascii c <? 128)%N
  && negb (existsb (Ascii.eqb c) ["["; "{"; "^"; "$"]%char).

(** The parser reads [t], the rest of the pattern [whole]; [cur] is the
    innermost open group and [stack] the groups around it. *)
Fixpoint parse (whole t : string) (cur : frame) (stack : list frame) (lastRepeat : string)
    : error + re :=
  match t with
  | EmptyString =>
      match stack with
      | [] => inr (alternate cur)
      | _ :: _ => inl (syntax_error "missing closing )" whole)
      end
  | String c rest =>
      if Ascii.eqb c "("%char then
        match rest with
        | String d _ =>
            if Ascii.eqb d "?"%char then inl unsupported
            else parse whole rest empty_frame (cur :: stack) EmptyString
        | EmptyString => parse whole rest empty_frame (cur :: stack) EmptyString
        end
      else if Ascii.eqb c "|"%char then
        parse whole rest (vertical_bar cur) stack EmptyString
      else if Ascii.eqb c ")"%char then
        match stack with
        | [] => inl (syntax_error "unexpected )" whole)
        | outer :: stack' => parse whole rest (push (alternate cur) outer) stack' EmptyString
        end
      else if Ascii.eqb c "."%char then
        parse whole rest (push AnyCharNotNL cur) stack EmptyString
      else if Ascii.eqb c "\"%char then
        match rest with
        | EmptyString => inl (syntax_error "trailing backslash at end of expression" EmptyString)
        | String d rest' =>
            if isalnum d || negb (Ascii.N_of_ascii d <? 128)%N then inl unsupported
            else parse whole rest' (push (Literal d) cur) stack EmptyString
        end
      else
        match repetition_of c with
        | Some op =>
            match rest with
            | String d rest' =>
                if Ascii.eqb d "?"%char then
                  let text := String c (String d EmptyString) in
                  match repeat op text lastRepeat cur with
                  | inl err => inl err
                  | inr cur' => parse whole rest' cur' stack text
                  end
                else
                  let text := String c EmptyString in
                  match repeat op text lastRepeat cur with
                  | inl err => inl err
                  | inr cur' => parse whole rest cur' stack text
                  end
            | EmptyString =>
                let text := String c EmptyString in
                match repeat op text lastRepeat cur with
                | inl err => inl err
                | inr cur' => parse whole rest cur' stack text
                end
            end
        | None =>
            if in_fragment c then parse whole rest (push (Literal c) cur) stack EmptyString
            else inl unsupported
        end
  end.

Definition compile (expr : string) : error + re :=
  parse expr expr empty_frame [] EmptyString.

Definition regexp : RegexpLib :=
  {| Regexp := re; Compile := compile; MatchString := search |}.

End Fragment.

(** ** Invocations

    One constructor per exported function, so that a statement can range
    over every call of every check. *)
Inductive invocation : Type :=
  | CallExpectedDeploymentCount (namespace : string) (expectedCount : Z)
  | CallDeploymentExists (name namespace : string)
  | CallAnnotationsEqual (annotations : gmap string string) (name expectedValue : string)
  | CallAnnotationsMatchPattern (annotations : gmap string string) (name expectedPattern : string)
  | CallConditionStatusMet (conditions : list DeploymentCondition)
      (conditionType expectedStatus : string)
  | CallReplicaCountAsExpected (expectedReplicas actualReplicas : Z) (description : string)
  | CallNamespaceExists (name : string)
  | CallServiceAccountExists (name namespace : string)
  | CallRoleExists (name namespace : string)
  | CallRoleBindingExists (name namespace : string)
  | CallClusterRoleExists (name : string)
  | CallClusterRoleBindingExists (name : string).

Definition call `{RegexpLib} (clientset : Clientset) (now : Time) (c : invocation) : M unit :=
  match c with
  | CallExpectedDeploymentCount namespace expectedCount =>
      ExpectedDeploymentCount clientset namespace expectedCount
  | CallDeploymentExists name namespace => DeploymentExists clientset name namespace
  | CallAnnotationsEqual annotations name expectedValue =>
      AnnotationsEqual annotations name expectedValue
  | CallAnnotationsMatchPattern annotations name expectedPattern =>
      AnnotationsMatchPattern annotations name expectedPattern
  | CallConditionStatusMet conditions conditionType expectedStatus =>
      ConditionStatusMet conditions conditionType expectedStatus
  | CallReplicaCountAsExpected expectedReplicas actualReplicas description =>
      ReplicaCountAsExpected expectedReplicas actualReplicas description
  | CallNamespaceExists name => NamespaceExists clientset name
  | CallServiceAccountExists name namespace => ServiceAccountExists clientset now name namespace
  | CallRoleExists name namespace => RoleExists clientset now name namespace
  | CallRoleBindingExists name namespace => RoleBindingExists clientset now name namespace
  | CallClusterRoleExists name => ClusterRoleExists clientset now name
  | CallClusterRoleBindingExists name => ClusterRoleBindingExists clientset now name
  end.

(** ** Inputs to run the checks on *)

Definition meta (name : string) (created : Time) : ObjectMeta :=
  {| Name := name; CreationTimestamp := created |}.

(** An API server that cannot be reached: every call fails. *)
Definition unreachable (err : error) : Clientset :=
  {| ListDeployments := λ _, inl err;
     GetDeployment := λ _ _, inl err;
     GetNamespace := λ _, inl err;
     GetServiceAccount := λ _ _, inl err;
     GetRole := λ _ _, inl err;
     GetRoleBinding := λ _ _, inl err;
     GetClusterRole := λ _, inl err;
     GetClusterRoleBinding := λ _, inl err |}.

(** A cluster that answers every call: [n] deployments in every namespace,
    every namespace in phase [phase], every object created at [created]
    under the name asked for. *)
Definition uniform_cluster (n : nat) (phase : string) (created : Time) : Clientset :=
  {| ListDeployments := λ _,
       inr {| Items := replicate n {| Deployment_ObjectMeta := meta "jenkins" created |} |};
     GetDeployment := λ _ name, inr {| Deployment_ObjectMeta := meta name created |};
     GetNamespace := λ name,
       inr {| Namespace_ObjectMeta := meta name created;
              Namespace_Status := {| Phase := phase |} |};
     GetServiceAccount := λ _ name, inr {| ServiceAccount_ObjectMeta := meta name created |};
     GetRole := λ _ name, inr {| Role_ObjectMeta := meta name created |};
     GetRoleBinding := λ _ name, inr {| RoleBinding_ObjectMeta := meta name created |};
     GetClusterRole := λ name, inr {| ClusterRole_ObjectMeta := meta name created |};
     GetClusterRoleBinding := λ name,
       inr {| ClusterRoleBinding_ObjectMeta := meta name created |} |}.

(** The conditions of a deployment that progresses but is not available. *)
Definition rollout : list DeploymentCondition :=
  [ {| cond_Type := "Progressing"; cond_Status := "True" |};
    {| cond_Type := "Available"; cond_Status := "False" |} ].

(** The annotations of a deployment. *)
Definition jenkins_annotations : gmap string string :=
  {[ "version" := "v1.22"; "owner" := "platform" ]}.

(** * Properties *)

(** ** Strings *)

Lemma append_cons (x : ascii) (a b : string) : String x a +:+ b = String x (a +:+ b).
Proof. reflexivity. Qed.

Lemma append_assoc (a b c : string) : (a +:+ b) +:+ c = a +:+ (b +:+ c).
Proof.
  induction a as [|x a IH]; [done |].
  rewrite !append_cons. by f_equal.
Qed.

Lemma prefix_append (p s : string) : String.prefix p (p +:+ s) = true.
Proof.
  induction p as [|x p IH]; [by destruct s |].
  rewrite append_cons. simpl.
  destruct (Ascii.ascii_dec x x); [exact IH | done].
Qed.

Lemma prefix_inv (p s : string) : String.prefix p s = true → ∃ post, s = p +:+ post.
Proof.
  revert s. induction p as [|x p IH]; intros s Hp.
  - by exists s.
  - destruct s as [|y s]; [done |]. simpl in Hp.
    destruct (Ascii.ascii_dec x y) as [->|]; [| done].
    destruct (IH _ Hp) as [post ->]. by exists post.
Qed.

Lemma Contains_cons (x : ascii) (s substr : string) :
  Contains (String x s) substr = String.prefix substr (String x s) || Contains s substr.
Proof. reflexivity. Qed.

(** [Contains] decides the occurrence of a substring. *)
Lemma Contains_spec (s substr : string) :
  Contains s substr = true ↔ ∃ pre post, s = pre +:+ (substr +:+ post).
Proof.
  split.
  - induction s as [|x s IH].
    + destruct substr; [by exists EmptyString, EmptyString | done].
    + rewrite Contains_cons, orb_true_iff. intros [Hp | Hc].
      * destruct (prefix_inv _ _ Hp) as [post Hs]. exists EmptyString, post. exact Hs.
      * destruct (IH Hc) as (pre & post & ->). by exists (String x pre), post.
  - intros (pre & post & ->). induction pre as [|x pre IH].
    + change (Contains (substr +:+ post) substr = true).
      destruct substr as [|y substr]; [by destruct post |].
      rewrite append_cons, Contains_cons, orb_true_iff. left.
      rewrite <- append_cons. apply prefix_append.
    + rewrite append_cons, Contains_cons, orb_true_iff. right. exact IH.
Qed.

Lemma Contains_intro (pre substr post s : string) :
  s = pre +:+ (substr +:+ post) → Contains s substr = true.
Proof. intros ->. apply Contains_spec. eauto. Qed.

(** ** Running a check *)

Ltac run_check :=
  unfold mbind, M_bind, bind, panic_on_error, index, mret, M_ret, ret, panic, Logf, Errorf.

(** [occurs pre post]: the message is [pre], the substring, then [post]. *)
Ltac occurs pre post :=
  apply (Contains_intro pre _ post); rewrite ?append_assoc; reflexivity.

(** The loop of [ConditionStatusMet] keeps the conditions of the requested
    type, in their order. *)
Lemma collect_matches_filter (conditions : list DeploymentCondition) (conditionType : string) :
  collect_matches conditions conditionType
  = filter (λ c, cond_Type c = conditionType) conditions.
Proof.
  unfold collect_matches.
  induction conditions as [|c cs IH] using rev_ind; [done |].
  rewrite foldl_snoc, IH, filter_app, filter_cons, filter_nil.
  case_bool_decide; case_decide; try done. by rewrite app_nil_r.
Qed.

(** ** The engine of the fragment *)

Lemma search_nullable (r : Fragment.re) (s : string) :
  Fragment.nullable r = true → Fragment.search r s = true.
Proof. intros Hn. destruct s; simpl; by rewrite Hn. Qed.

Lemma compile_empty : Fragment.compile EmptyString = inr Fragment.EmptyMatch.
Proof. reflexivity. Qed.

(** The search agrees with the languages: [deriv] is the derivative,
    [match_prefix] finds a prefix in the language and [search] a substring. *)
Module FragmentFacts.
Import Fragment.

Lemma append_empty_inv (u v : string) : u +:+ v = EmptyString → u = EmptyString ∧ v = EmptyString.
Proof.
  destruct u; [intros Hv; change (v = EmptyString) in Hv; by subst |].
  by rewrite append_cons.
Qed.

Lemma nullable_spec (r : re) : nullable r = true ↔ matches r EmptyString.
Proof.
  split.
  - induction r; simpl; try done; intros Hn.
    + constructor.
    + apply andb_true_iff in Hn as [H1 H2].
      change EmptyString with (EmptyString +:+ EmptyString). constructor; auto.
    + apply orb_true_iff in Hn as [H1 | H2]; [apply matches_left | apply matches_right]; auto.
    + constructor.
  - remember EmptyString as e eqn:He. induction 1; simpl; try done.
    + pose proof (append_empty_inv _ _ He) as [Hu Hv]. by rewrite IHmatches1, IHmatches2.
    + by rewrite IHmatches.
    + rewrite IHmatches; [apply orb_true_r | done].
Qed.

Lemma star_cons_inv (r : re) (c : ascii) (s : string) :
  matches (Star r) (String c s) →
  ∃ u v, s = u +:+ v ∧ matches r (String c u) ∧ matches (Star r) v.
Proof.
  remember (Star r) as q eqn:Hq. remember (String c s) as w eqn:Hw.
  intros Hm. revert s Hw. induction Hm; intros s' Hw; try done.
  injection Hq as ->. destruct u as [|x u].
  - apply IHHm2; [done | exact Hw].
  - rewrite append_cons in Hw. injection Hw as -> <-. by exists u, v.
Qed.

Lemma matches_concat_inv (r s : re) (w : string) :
  matches (Concat r s) w → ∃ u v, w = u +:+ v ∧ matches r u ∧ matches s v.
Proof. inversion 1; subst; eauto. Qed.

Lemma matches_alternate_inv (r s : re) (w : string) :
  matches (Alternate r s) w → matches r w ∨ matches s w.
Proof. inversion 1; subst; eauto. Qed.

Lemma deriv_spec (r : re) (c : ascii) (s : string) :
  matches (deriv c r) s ↔ matches r (String c s).
Proof.
  revert s. induction r as [| | d | | r1 IH1 r2 IH2 | r1 IH1 r2 IH2 | r IH]; intros s; simpl.
  - split; inversion 1.
  - split; inversion 1.
  - destruct (Ascii.eqb_spec c d) as [-> | Hne]; split; inversion 1; subst;
      try constructor; done.
  - destruct (Ascii.eqb_spec c "010"%char) as [-> | Hne]; split; inversion 1; subst;
      try (by constructor); done.
  - split.
    + intros [Hl | Hr]%matches_alternate_inv.
      * apply matches_concat_inv in Hl as (u & v & -> & Hu & Hv).
        rewrite <- append_cons. constructor; [by apply IH1 | done].
      * destruct (nullable r1) eqn:Hn; [| inversion Hr].
        change (String c s) with (EmptyString +:+ String c s).
        constructor; [by apply nullable_spec | by apply IH2].
    + intros (u & v & Heq & Hu & Hv)%matches_concat_inv.
      destruct u as [|x u].
      * apply matches_right. apply nullable_spec in Hu as ->.
        apply IH2. by rewrite Heq.
      * rewrite append_cons in Heq. injection Heq as -> ->.
        apply matches_left. constructor; [by apply IH1 | done].
  - split; intros [Hl | Hr]%matches_alternate_inv;
      (apply matches_left; by apply IH1) || (apply matches_right; by apply IH2).
  - split.
    + intros (u & v & -> & Hu & Hv)%matches_concat_inv.
      rewrite <- append_cons. constructor; [by apply IH | done].
    + intros Hm. apply star_cons_inv in Hm as (u & v & -> & Hu & Hv).
      constructor; [by apply IH | done].
Qed.

Lemma match_prefix_spec (r : re) (s : string) :
  match_prefix r s = true ↔ ∃ u v, s = u +:+ v ∧ matches r u.
Proof.
  revert r. induction s as [|c s IH]; intros r; simpl; rewrite orb_true_iff.
  - split.
    + intros [Hn | ?]; [| done]. exists EmptyString, EmptyString. split; [done |].
      by apply nullable_spec.
    + intros (u & v & Heq & Hm). left. symmetry in Heq.
      destruct (append_empty_inv _ _ Heq) as [-> _]. by apply nullable_spec.
  - rewrite IH. split.
    + intros [Hn | (u & v & -> & Hm)].
      * exists EmptyString, (String c s). split; [done | by apply nullable_spec].
      * exists (String c u), v. split; [done | by apply deriv_spec].
    + intros (u & v & Heq & Hm). destruct u as [|x u].
      * left. by apply nullable_spec.
      * right. rewrite append_cons in Heq. injection Heq as -> ->.
        exists u, v. split; [done | by apply deriv_spec].
Qed.

Lemma search_cons (r : re) (c : ascii) (s : string) :
  search r (String c s) = match_prefix r (String c s) || search r s.
Proof. reflexivity. Qed.

Lemma search_spec (r : re) (s : string) :
  search r s = true ↔ ∃ pre u post, s = pre +:+ (u +:+ post) ∧ matches r u.
Proof.
  induction s as [|c s IH].
  - change (search r EmptyString) with (match_prefix r EmptyString || false).
    rewrite orb_false_r, match_prefix_spec. split.
    + intros (u & v & Heq & Hm). by exists EmptyString, u, v.
    + intros (pre & u & post & Heq & Hm). symmetry in Heq.
      destruct (append_empty_inv _ _ Heq) as [-> Hup]. exists u, post. by rewrite Hup.
  - rewrite search_cons, orb_true_iff, match_prefix_spec, IH. split.
    + intros [(u & v & Heq & Hm) | (pre & u & post & -> & Hm)].
      * by exists EmptyString, u, v.
      * by exists (String c pre), u, post.
    + intros (pre & u & post & Heq & Hm). destruct pre as [|x pre].
      * left. by exists u, post.
      * right. rewrite append_cons in Heq. injection Heq as -> ->. by exists pre, u, post.
Qed.
End FragmentFacts.

(** ** Fetch failures *)

(** C1. In each of the eight checks that fetch through the API client, a
    fetch that returns an error makes the check panic with the message of
    that error, and the test handle is left as it was: no success and no
    failure record is written. *)
Theorem fetch_error_panics_without_report
    (clientset : Clientset) (now : Time) (err : error) (t : T) :
  (∀ namespace expectedCount,
     ListDeployments clientset namespace = inl err →
     ExpectedDeploymentCount clientset namespace expectedCount t
     = Panicked (PanicString err) t)
  ∧ (∀ name namespace,
       GetDeployment clientset namespace name = inl err →
       DeploymentExists clientset name namespace t = Panicked (PanicString err) t)
  ∧ (∀ name,
       GetNamespace clientset name = inl err →
       NamespaceExists clientset name t = Panicked (PanicString err) t)
  ∧ (∀ name namespace,
       GetServiceAccount clientset namespace name = inl err →
       ServiceAccountExists clientset now name namespace t = Panicked (PanicString err) t)
  ∧ (∀ name namespace,
       GetRole clientset namespace name = inl err →
       RoleExists clientset now name namespace t = Panicked (PanicString err) t)
  ∧ (∀ name namespace,
       GetRoleBinding clientset namespace name = inl err →
       RoleBindingExists clientset now name namespace t = Panicked (PanicString err) t)
  ∧ (∀ name,
       GetClusterRole clientset name = inl err →
       ClusterRoleExists clientset now name t = Panicked (PanicString err) t)
  ∧ (∀ name,
       GetClusterRoleBinding clientset name = inl err →
       ClusterRoleBindingExists clientset now name t = Panicked (PanicString err) t).
Proof.
  repeat split; intros;
    unfold ExpectedDeploymentCount, DeploymentExists, NamespaceExists, ServiceAccountExists,
      RoleExists, RoleBindingExists, ClusterRoleExists, ClusterRoleBindingExists;
    run_check;
    match goal with Hf : _ = inl err |- _ => by rewrite Hf end.
Qed.

(** The eight checks against an API server that refuses the connection, on
    a handle that already holds a record. *)
Lemma fetch_error_panics_without_report_witness :
  let down := unreachable "connection refused" in
  let t := [LogRecord "setup done"] in
  let aborted := Panicked (PanicString "connection refused") t in
  ExpectedDeploymentCount down "prod" 3 t = aborted
  ∧ DeploymentExists down "jenkins" "prod" t = aborted
  ∧ NamespaceExists down "prod" t = aborted
  ∧ ServiceAccountExists down 100 "jenkins" "prod" t = aborted
  ∧ RoleExists down 100 "jenkins" "prod" t = aborted
  ∧ RoleBindingExists down 100 "jenkins" "prod" t = aborted
  ∧ ClusterRoleExists down 100 "jenkins" t = aborted
  ∧ ClusterRoleBindingExists down 100 "jenkins" t = aborted.
Proof.
  intros down t aborted.
  destruct (fetch_error_panics_without_report down 100 "connection refused" t)
    as (H1 & H2 & H3 & H4 & H5 & H6 & H7 & H8).
  exact (conj (H1 "prod" 3 eq_refl) (conj (H2 "jenkins" "prod" eq_refl)
    (conj (H3 "prod" eq_refl) (conj (H4 "jenkins" "prod" eq_refl)
    (conj (H5 "jenkins" "prod" eq_refl) (conj (H6 "jenkins" "prod" eq_refl)
    (conj (H7 "jenkins" eq_refl) (H8 "jenkins" eq_refl)))))))).
Defined.

(** ** One record for each call that returns *)

(** C2, as the specification states it, fails: a check whose fetch fails
    writes no record at all. *)
Lemma failed_fetch_leaves_no_record :
  ¬ ∃ r, handle (ExpectedDeploymentCount (unreachable "connection refused") "prod" 3 []) = [r].
Proof. intros [r Hr]. discriminate Hr. Qed.

(** C2, amended. Every call of every check either panics, and then the
    test handle is as it was before the call (no record), or returns, and
    then exactly one record, a success or a failure, has been added. *)
Theorem one_record_unless_panic `{RegexpLib}
    (clientset : Clientset) (now : Time) (c : invocation) (t : T) :
  (∃ v, call clientset now c t = Panicked v t)
  ∨ (∃ r, call clientset now c t = Returned () (t ++ [r])).
Proof.
  destruct c; simpl;
    unfold ExpectedDeploymentCount, DeploymentExists, AnnotationsEqual,
      AnnotationsMatchPattern, ConditionStatusMet, ReplicaCountAsExpected, NamespaceExists,
      ServiceAccountExists, RoleExists, RoleBindingExists, ClusterRoleExists,
      ClusterRoleBindingExists;
    run_check;
    repeat match goal with
      | |- context [match ?f with inl _ => _ | inr _ => _ end] => destruct f
      | |- context [match ?l !! ?i with Some _ => _ | None => _ end] => destruct (l !! i)
      | |- context [if ?b then _ else _] => destruct b
      end;
    eauto.
Qed.

(** ** The condition status check *)

(** C3. When exactly one condition of the list has the requested type, the
    check returns after writing one record, a success exactly when the
    status of that condition equals the expected status.  When no condition
    has the requested type, [matches[0]] panics with an index error and no
    record is written. *)
Theorem ConditionStatusMet_one_or_no_match
    (conditions : list DeploymentCondition) (conditionType expectedStatus : string) (t : T) :
  (∀ c,
     filter (λ c', cond_Type c' = conditionType) conditions = [c] →
     ∃ r, ConditionStatusMet conditions conditionType expectedStatus t = Returned () (t ++ [r])
          ∧ (is_success r = true ↔ cond_Status c = expectedStatus))
  ∧ (filter (λ c', cond_Type c' = conditionType) conditions = [] →
     ConditionStatusMet conditions conditionType expectedStatus t
     = Panicked (IndexOutOfRange 0 0) t).
Proof.
  unfold ConditionStatusMet. rewrite collect_matches_filter. split.
  - intros c ->. run_check. cbn [lookup list_lookup].
    case_bool_decide; eexists; (split; [reflexivity |]); simpl; [done |].
    split; [done | by intros].
  - intros ->. reflexivity.
Qed.

(** A deployment that progresses but is not available yet: asked for
    [Available], the check reports; asked for [ReplicaFailure], it panics. *)
Lemma ConditionStatusMet_one_or_no_match_witness :
  (∃ r, ConditionStatusMet rollout "Available" "True" [] = Returned () ([] ++ [r])
        ∧ (is_success r = true ↔ "False" = "True"))
  ∧ ConditionStatusMet rollout "ReplicaFailure" "True" [] = Panicked (IndexOutOfRange 0 0) [].
Proof.
  split.
  - exact (proj1 (ConditionStatusMet_one_or_no_match rollout "Available" "True" [])
             {| cond_Type := "Available"; cond_Status := "False" |} eq_refl).
  - exact (proj2 (ConditionStatusMet_one_or_no_match rollout "ReplicaFailure" "True" [])
             eq_refl).
Defined.

(** ** The annotation checks *)

(** C4. With [V] the annotation under the key, the empty string when the
    key is absent: if the pattern compiles, the pattern check returns after
    one record, a success exactly when the compiled pattern matches [V]; if
    the pattern does not compile, the check panics with the compile error
    and writes no record. *)
Theorem AnnotationsMatchPattern_valid_or_invalid `{RegexpLib}
    (annotations : gmap string string) (name expectedPattern : string) (t : T) :
  let V := default EmptyString (annotations !! name) in
  (∀ pattern,
     Compile expectedPattern = inr pattern →
     ∃ r, AnnotationsMatchPattern annotations name expectedPattern t = Returned () (t ++ [r])
          ∧ (is_success r = true ↔ MatchString pattern V = true))
  ∧ (∀ err,
       Compile expectedPattern = inl err →
       AnnotationsMatchPattern annotations name expectedPattern t
       = Panicked (PanicString err) t).
Proof.
  intros V. unfold AnnotationsMatchPattern, map_index. fold V. run_check. split.
  - intros pattern ->. destruct (MatchString pattern V); eexists; by split.
  - by intros err ->.
Qed.

(** On the engine of the fragment: a pattern that compiles and matches the
    annotation, and a pattern with an unclosed group. *)
Lemma AnnotationsMatchPattern_valid_or_invalid_witness :
  (∃ r, AnnotationsMatchPattern (H := Fragment.regexp) jenkins_annotations
          "version" "v1\.2+" [] = Returned () ([] ++ [r])
        ∧ is_success r = true)
  ∧ AnnotationsMatchPattern (H := Fragment.regexp) jenkins_annotations "version" "(v1" []
    = Panicked (PanicString "error parsing regexp: missing closing ): `(v1`") [].
Proof.
  split.
  - destruct (Fragment.compile "v1\.2+") as [err | pattern] eqn:Hc; [discriminate Hc |].
    destruct (proj1 (AnnotationsMatchPattern_valid_or_invalid (H := Fragment.regexp)
                       jenkins_annotations "version" "v1\.2+" []) pattern Hc)
      as (r & Hr & Hs).
    exists r. split; [exact Hr |]. apply Hs.
    injection Hc as <-. reflexivity.
  - exact (proj2 (AnnotationsMatchPattern_valid_or_invalid (H := Fragment.regexp)
                    jenkins_annotations "version" "(v1" []) _ eq_refl).
Defined.

(** C5. With the key present and bound to [V], the equality check returns
    after one record, a success exactly when the expected value equals [V],
    and the message of that record carries both values.  With the key
    absent, the check does what it does on the map that binds the key to
    the empty string, and it returns: it never panics. *)
Theorem AnnotationsEqual_present_or_absent
    (annotations : gmap string string) (name expectedValue : string) (t : T) :
  (∀ V,
     annotations !! name = Some V →
     ∃ r, AnnotationsEqual annotations name expectedValue t = Returned () (t ++ [r])
          ∧ (is_success r = true ↔ expectedValue = V)
          ∧ Contains (message r) ("Expected " +:+ expectedValue +:+ ", got " +:+ V +:+ ".") = true
          ∧ Contains (message r) expectedValue = true
          ∧ Contains (message r) V = true)
  ∧ (annotations !! name = None →
     AnnotationsEqual annotations name expectedValue t
     = AnnotationsEqual (<[name := EmptyString]> annotations) name expectedValue t
     ∧ ∃ r, AnnotationsEqual annotations name expectedValue t = Returned () (t ++ [r])).
Proof.
  unfold AnnotationsEqual, map_index. split.
  - intros V ->. run_check. cbn [default].
    case_bool_decide; eexists; (split; [reflexivity |]); (split; [by split |]);
      repeat split.
    + occurs ("Annotation " +:+ name +:+ " exists with its expected value.  ") EmptyString.
    + occurs ("Annotation " +:+ name +:+ " exists with its expected value.  Expected ")
             (", got " +:+ V +:+ ".").
    + occurs ("Annotation " +:+ name +:+ " exists with its expected value.  Expected "
              +:+ expectedValue +:+ ", got ") ".".
    + occurs ("Annotation " +:+ name +:+ " does not exist with its expected value.  ")
             EmptyString.
    + occurs ("Annotation " +:+ name +:+ " does not exist with its expected value.  Expected ")
             (", got " +:+ V +:+ ".").
    + occurs ("Annotation " +:+ name +:+ " does not exist with its expected value.  Expected "
              +:+ expectedValue +:+ ", got ") ".".
  - intros Hnone. rewrite lookup_insert_eq, Hnone. split; [done |].
    run_check. cbn [default]. case_bool_decide; eauto.
Qed.

(** The [version] annotation is present, the [team] annotation is not. *)
Lemma AnnotationsEqual_present_or_absent_witness :
  (∃ r, AnnotationsEqual jenkins_annotations "version" "v1.23" [] = Returned () ([] ++ [r])
        ∧ is_success r = false
        ∧ Contains (message r) "Expected v1.23, got v1.22." = true)
  ∧ (∃ r, AnnotationsEqual jenkins_annotations "team" "" [] = Returned () ([] ++ [r])).
Proof.
  split.
  - destruct (proj1 (AnnotationsEqual_present_or_absent jenkins_annotations
                       "version" "v1.23" []) "v1.22" eq_refl)
      as (r & Hr & Hs & Hc & _).
    exists r. split; [exact Hr |]. split; [| exact Hc].
    destruct (is_success r); [| done]. discriminate (proj1 Hs eq_refl).
  - exact (proj2 (proj2 (AnnotationsEqual_present_or_absent jenkins_annotations
                           "team" "" []) eq_refl)).
Defined.

(** ** The count checks *)

(** C6. The deployment count check, whose actual value is the length of
    the list the API returned, and the replica count check return after one
    record, a success when the expected and the actual value are equal and
    a failure when they differ; either way the message carries both values
    in decimal, as [Expected e, got a.] *)
Theorem count_checks_compare_and_print (t : T) :
  (∀ clientset namespace expectedCount deployments,
     ListDeployments clientset namespace = inr deployments →
     let actualCount := Z.of_nat (length (Items deployments)) in
     ∃ r, ExpectedDeploymentCount clientset namespace expectedCount t = Returned () (t ++ [r])
          ∧ (is_success r = true ↔ expectedCount = actualCount)
          ∧ Contains (message r)
              ("Expected " +:+ pretty expectedCount +:+ ", got " +:+ pretty actualCount +:+ ".")
            = true
          ∧ Contains (message r) (pretty expectedCount) = true
          ∧ Contains (message r) (pretty actualCount) = true)
  ∧ (∀ expectedReplicas actualReplicas description,
       ∃ r, ReplicaCountAsExpected expectedReplicas actualReplicas description t
            = Returned () (t ++ [r])
            ∧ (is_success r = true ↔ expectedReplicas = actualReplicas)
            ∧ Contains (message r)
                ("Expected " +:+ pretty expectedReplicas +:+ ", got "
                 +:+ pretty actualReplicas +:+ ".")
              = true
            ∧ Contains (message r) (pretty expectedReplicas) = true
            ∧ Contains (message r) (pretty actualReplicas) = true).
Proof.
  split.
  - intros clientset namespace expectedCount deployments Hf actualCount.
    unfold ExpectedDeploymentCount. run_check. rewrite Hf. fold actualCount.
    case_bool_decide; eexists; (split; [reflexivity |]);
      (split; [split; [done | by intros] |]); repeat split.
    + occurs ("The expected number of Deployments exist in the '" +:+ namespace
              +:+ "' namespace.  ") EmptyString.
    + occurs ("The expected number of Deployments exist in the '" +:+ namespace
              +:+ "' namespace.  Expected ") (", got " +:+ pretty actualCount +:+ ".").
    + occurs ("The expected number of Deployments exist in the '" +:+ namespace
              +:+ "' namespace.  Expected " +:+ pretty expectedCount +:+ ", got ") ".".
    + occurs ("An unexpected number of Deployments exist in the '" +:+ namespace
              +:+ "' namespace.  ") EmptyString.
    + occurs ("An unexpected number of Deployments exist in the '" +:+ namespace
              +:+ "' namespace.  Expected ") (", got " +:+ pretty actualCount +:+ ".").
    + occurs ("An unexpected number of Deployments exist in the '" +:+ namespace
              +:+ "' namespace.  Expected " +:+ pretty expectedCount +:+ ", got ") ".".
  - intros expectedReplicas actualReplicas description.
    unfold ReplicaCountAsExpected. run_check.
    case_bool_decide; eexists; (split; [reflexivity |]);
      (split; [split; [done | by intros] |]); repeat split.
    + occurs ("Jenkins Deployment has expected " +:+ description +:+ ".  ") EmptyString.
    + occurs ("Jenkins Deployment has expected " +:+ description +:+ ".  Expected ")
             (", got " +:+ pretty actualReplicas +:+ ".").
    + occurs ("Jenkins Deployment has expected " +:+ description +:+ ".  Expected "
              +:+ pretty expectedReplicas +:+ ", got ") ".".
    + occurs ("Jenkins Deployment has unexpected " +:+ description +:+ ".  ") EmptyString.
    + occurs ("Jenkins Deployment has unexpected " +:+ description +:+ ".  Expected ")
             (", got " +:+ pretty actualReplicas +:+ ".").
    + occurs ("Jenkins Deployment has unexpected " +:+ description +:+ ".  Expected "
              +:+ pretty expectedReplicas +:+ ", got ") ".".
Qed.

(** Three deployments in [prod]: expecting three succeeds, expecting four
    fails with a message that contains [Expected 4, got 3]. *)
Lemma count_checks_compare_and_print_witness :
  (∃ r, ExpectedDeploymentCount (uniform_cluster 3 "Active" 0) "prod" 3 []
        = Returned () ([] ++ [r])
        ∧ is_success r = true)
  ∧ (∃ r, ExpectedDeploymentCount (uniform_cluster 3 "Active" 0) "prod" 4 []
          = Returned () ([] ++ [r])
          ∧ is_success r = false
          ∧ Contains (message r) "Expected 4, got 3." = true).
Proof.
  split.
  - destruct (proj1 (count_checks_compare_and_print [])
                (uniform_cluster 3 "Active" 0) "prod" 3 _ eq_refl)
      as (r & Hr & Hs & _).
    exists r. split; [exact Hr |]. by apply Hs.
  - destruct (proj1 (count_checks_compare_and_print [])
                (uniform_cluster 3 "Active" 0) "prod" 4 _ eq_refl)
      as (r & Hr & Hs & Hc & _).
    exists r. split; [exact Hr |]. split; [| exact Hc].
    destruct (is_success r); [| done]. discriminate (proj1 Hs eq_refl).
Defined.

(** The scenario of the specification, evaluated. *)
Example prod_expected_4_got_3 :
  ExpectedDeploymentCount (uniform_cluster 3 "Active" 0) "prod" 4 []
  = Returned ()
      [ErrorRecord
         "An unexpected number of Deployments exist in the 'prod' namespace.  Expected 4, got 3."].
Proof. reflexivity. Qed.

(** ** The namespace check *)

(** C8. When the namespace is fetched, the check returns after one record,
    a success exactly when the phase of the namespace is [Active]; a
    namespace in phase [Terminating] gets a failure. *)
Theorem NamespaceExists_iff_Active
    (clientset : Clientset) (name : string) (namespace : Namespace) (t : T) :
  GetNamespace clientset name = inr namespace →
  ∃ r, NamespaceExists clientset name t = Returned () (t ++ [r])
       ∧ (is_success r = true ↔ Phase (Namespace_Status namespace) = "Active")
       ∧ (Phase (Namespace_Status namespace) = "Terminating" → is_success r = false).
Proof.
  intros Hf. unfold NamespaceExists. run_check. rewrite Hf.
  case_bool_decide as Hp; eexists; (split; [reflexivity |]); split; simpl.
  - done.
  - by rewrite Hp.
  - split; [done | by intros].
  - done.
Qed.

Lemma NamespaceExists_iff_Active_witness :
  ∃ r, NamespaceExists (uniform_cluster 3 "Terminating" 0) "staging" []
       = Returned () ([] ++ [r])
       ∧ is_success r = false.
Proof.
  destruct (NamespaceExists_iff_Active (uniform_cluster 3 "Terminating" 0) "staging" _ []
              eq_refl) as (r & Hr & _ & Ht).
  exists r. split; [exact Hr | exact (Ht eq_refl)].
Defined.

(** ** The checks by creation timestamp *)

(** C9. For a service account, role, role binding, cluster role or cluster
    role binding that is fetched, the existence check returns after one
    record, a success exactly when the creation timestamp of the object is
    strictly before the instant [metav1.Now()] gives in the check, and a
    failure otherwise. *)
Theorem existence_checks_iff_created_before_now
    (clientset : Clientset) (now : Time) (t : T) :
  (∀ name namespace serviceAccount,
     GetServiceAccount clientset namespace name = inr serviceAccount →
     ∃ r, ServiceAccountExists clientset now name namespace t = Returned () (t ++ [r])
          ∧ (is_success r = true
             ↔ CreationTimestamp (ServiceAccount_ObjectMeta serviceAccount) < now))
  ∧ (∀ name namespace role,
       GetRole clientset namespace name = inr role →
       ∃ r, RoleExists clientset now name namespace t = Returned () (t ++ [r])
            ∧ (is_success r = true ↔ CreationTimestamp (Role_ObjectMeta role) < now))
  ∧ (∀ name namespace role,
       GetRoleBinding clientset namespace name = inr role →
       ∃ r, RoleBindingExists clientset now name namespace t = Returned () (t ++ [r])
            ∧ (is_success r = true ↔ CreationTimestamp (RoleBinding_ObjectMeta role) < now))
  ∧ (∀ name role,
       GetClusterRole clientset name = inr role →
       ∃ r, ClusterRoleExists clientset now name t = Returned () (t ++ [r])
            ∧ (is_success r = true ↔ CreationTimestamp (ClusterRole_ObjectMeta role) < now))
  ∧ (∀ name role,
       GetClusterRoleBinding clientset name = inr role →
       ∃ r, ClusterRoleBindingExists clientset now name t = Returned () (t ++ [r])
            ∧ (is_success r = true
               ↔ CreationTimestamp (ClusterRoleBinding_ObjectMeta role) < now)).
Proof.
  repeat split; intros until 1;
    unfold ServiceAccountExists, RoleExists, RoleBindingExists, ClusterRoleExists,
      ClusterRoleBindingExists;
    run_check;
    match goal with Hf : _ = inr _ |- _ => rewrite Hf end;
    unfold Before, time_Before;
    case_bool_decide; eexists; (split; [reflexivity |]); simpl; split; done.
Qed.

(** Objects created at instant 50 exist at instant 100; a service account
    created at the very instant of the check does not pass: the comparison
    is strict. *)
Lemma existence_checks_iff_created_before_now_witness :
  let cluster := uniform_cluster 3 "Active" 50 in
  (∃ r, ServiceAccountExists cluster 100 "jenkins" "prod" [] = Returned () ([] ++ [r])
        ∧ is_success r = true)
  ∧ (∃ r, RoleExists cluster 100 "jenkins" "prod" [] = Returned () ([] ++ [r])
          ∧ is_success r = true)
  ∧ (∃ r, RoleBindingExists cluster 100 "jenkins" "prod" [] = Returned () ([] ++ [r])
          ∧ is_success r = true)
  ∧ (∃ r, ClusterRoleExists cluster 100 "jenkins" [] = Returned () ([] ++ [r])
          ∧ is_success r = true)
  ∧ (∃ r, ClusterRoleBindingExists cluster 100 "jenkins" [] = Returned () ([] ++ [r])
          ∧ is_success r = true)
  ∧ (∃ r, ServiceAccountExists cluster 50 "jenkins" "prod" [] = Returned () ([] ++ [r])
          ∧ is_success r = false).
Proof.
  intros cluster.
  destruct (existence_checks_iff_created_before_now cluster 100 [])
    as (H1 & H2 & H3 & H4 & H5).
  destruct (H1 "jenkins" "prod" _ eq_refl) as (r1 & Hr1 & Hs1).
  destruct (H2 "jenkins" "prod" _ eq_refl) as (r2 & Hr2 & Hs2).
  destruct (H3 "jenkins" "prod" _ eq_refl) as (r3 & Hr3 & Hs3).
  destruct (H4 "jenkins" _ eq_refl) as (r4 & Hr4 & Hs4).
  destruct (H5 "jenkins" _ eq_refl) as (r5 & Hr5 & Hs5).
  destruct (proj1 (existence_checks_iff_created_before_now cluster 50 [])
              "jenkins" "prod" _ eq_refl) as (r6 & Hr6 & Hs6).
  repeat apply conj;
    [exists r1 | exists r2 | exists r3 | exists r4 | exists r5 | exists r6];
    (split; [assumption |]).
  - by apply Hs1.
  - by apply Hs2.
  - by apply Hs3.
  - by apply Hs4.
  - by apply Hs5.
  - destruct (is_success r6); [| done].
    pose proof (proj1 Hs6 eq_refl) as Hlt. simpl in Hlt. lia.
Defined.

(** ** The empty pattern *)

(** For any implementation of the regexp interface: if the empty pattern
    compiles and the compiled pattern matches every string, the pattern
    check called with the empty pattern reports success. *)
Lemma empty_pattern_succeeds_if_it_matches_all `{RegexpLib} (empty : Regexp)
    (annotations : gmap string string) (name : string) (t : T) :
  Compile EmptyString = inr empty →
  (∀ s, MatchString empty s = true) →
  ∃ r, AnnotationsMatchPattern annotations name EmptyString t = Returned () (t ++ [r])
       ∧ is_success r = true.
Proof.
  intros Hc Hm. unfold AnnotationsMatchPattern. run_check.
  rewrite Hc, Hm. by eexists.
Qed.

(** The empty string is in the language of the compiled empty pattern and
    occurs in every string, so the unanchored search always finds it. *)
Lemma search_empty_match (value : string) :
  Fragment.search Fragment.EmptyMatch value = true.
Proof.
  apply FragmentFacts.search_spec.
  exists EmptyString, EmptyString, value. split; [reflexivity | constructor].
Qed.

(** C10. On the regular-expression engine of this file, which stands for
    the regexp package on this pattern: the empty pattern compiles without
    error, and the compiled pattern matches every string, the empty string
    included, because the search is unanchored.  Hence, for every
    annotations map, every key, present or absent, and every test handle,
    the pattern check called with the empty pattern returns after exactly
    one record, which is a success. *)
Theorem empty_pattern_always_succeeds :
  (∃ empty, Fragment.compile EmptyString = inr empty
            ∧ ∀ value, Fragment.search empty value = true)
  ∧ ∀ (annotations : gmap string string) (name : string) (t : T),
      ∃ r, AnnotationsMatchPattern (H := Fragment.regexp) annotations name EmptyString t
           = Returned () (t ++ [r])
           ∧ is_success r = true.
Proof.
  split.
  - exists Fragment.EmptyMatch. split; [exact compile_empty | exact search_empty_match].
  - intros annotations name t.
    apply (empty_pattern_succeeds_if_it_matches_all (H := Fragment.regexp)
             Fragment.EmptyMatch);
      [exact compile_empty | exact search_empty_match].
Qed.

(** The key [team] is absent from the annotations, the key [version] is
    present: the empty pattern passes on both. *)
Example empty_pattern_on_absent_and_present_key :
  AnnotationsMatchPattern (H := Fragment.regexp) jenkins_annotations "team" "" []
  = Returned ()
      [LogRecord "Annotation team exists and matches its expected pattern.  Expected , got ."]
  ∧ AnnotationsMatchPattern (H := Fragment.regexp) jenkins_annotations "version" "" []
    = Returned ()
        [LogRecord
           "Annotation version exists and matches its expected pattern.  Expected , got v1.22."].
Proof. split; reflexivity. Qed.

(** ** What the messages say *)

(** C7, as the specification states it, fails: the message of the
    namespace check names the namespace only, neither the phase it expects
    nor the phase it observed. *)
Lemma namespace_message_omits_phase :
  ∃ r, NamespaceExists (uniform_cluster 3 "Terminating" 0) "staging" [] = Returned () [r]
       ∧ Contains (message r) "Active" = false
       ∧ Contains (message r) "Terminating" = false.
Proof.
  exists (ErrorRecord "Cluster does not have a namespace named staging.").
  split; [reflexivity |]. split; reflexivity.
Qed.

(** C7, amended. A call that reaches its report writes one record.  For the
    deployment count, deployment name, annotation equality, annotation
    pattern, condition status and replica count checks the message names
    what is checked and ends with [Expected e, got a.], [e] the expected
    and [a] the actual value.  For the namespace check and the five checks
    by creation timestamp the message is one of two fixed sentences about
    the object's name (and namespace), without expected or actual value. *)
Theorem report_message_contents `{RegexpLib} (clientset : Clientset) (now : Time) (t : T) :
  (∀ namespace expectedCount deployments,
     ListDeployments clientset namespace = inr deployments →
     ∃ r, ExpectedDeploymentCount clientset namespace expectedCount t = Returned () (t ++ [r])
          ∧ Contains (message r) "number of Deployments" = true
          ∧ Contains (message r)
              ("Expected " +:+ pretty expectedCount +:+ ", got "
               +:+ pretty (Z.of_nat (length (Items deployments))) +:+ ".") = true)
  ∧ (∀ name namespace deployment,
       GetDeployment clientset namespace name = inr deployment →
       ∃ r, DeploymentExists clientset name namespace t = Returned () (t ++ [r])
            ∧ Contains (message r) "Jenkins Deployment" = true
            ∧ Contains (message r)
                ("Expected " +:+ name +:+ ", got "
                 +:+ Name (Deployment_ObjectMeta deployment) +:+ ".") = true)
  ∧ (∀ annotations name expectedValue,
       ∃ r, AnnotationsEqual annotations name expectedValue t = Returned () (t ++ [r])
            ∧ Contains (message r) ("Annotation " +:+ name) = true
            ∧ Contains (message r)
                ("Expected " +:+ expectedValue +:+ ", got "
                 +:+ map_index annotations name +:+ ".") = true)
  ∧ (∀ annotations name expectedPattern pattern,
       Compile expectedPattern = inr pattern →
       ∃ r, AnnotationsMatchPattern annotations name expectedPattern t
            = Returned () (t ++ [r])
            ∧ Contains (message r) ("Annotation " +:+ name) = true
            ∧ Contains (message r)
                ("Expected " +:+ expectedPattern +:+ ", got "
                 +:+ map_index annotations name +:+ ".") = true)
  ∧ (∀ conditions conditionType expectedStatus first others,
       filter (λ c, cond_Type c = conditionType) conditions = first :: others →
       ∃ r, ConditionStatusMet conditions conditionType expectedStatus t
            = Returned () (t ++ [r])
            ∧ Contains (message r) ("Deployment condition type " +:+ conditionType) = true
            ∧ Contains (message r)
                ("Expected " +:+ expectedStatus +:+ ", got " +:+ cond_Status first +:+ ".")
              = true)
  ∧ (∀ expectedReplicas actualReplicas description,
       ∃ r, ReplicaCountAsExpected expectedReplicas actualReplicas description t
            = Returned () (t ++ [r])
            ∧ Contains (message r) ("Jenkins Deployment has") = true
            ∧ Contains (message r) description = true
            ∧ Contains (message r)
                ("Expected " +:+ pretty expectedReplicas +:+ ", got "
                 +:+ pretty actualReplicas +:+ ".") = true)
  ∧ (∀ name namespace,
       GetNamespace clientset name = inr namespace →
       ∃ r, NamespaceExists clientset name t = Returned () (t ++ [r])
            ∧ (message r = "Cluster has a namespace named " +:+ name +:+ "."
               ∨ message r = "Cluster does not have a namespace named " +:+ name +:+ "."))
  ∧ (∀ name namespace serviceAccount,
       GetServiceAccount clientset namespace name = inr serviceAccount →
       ∃ r, ServiceAccountExists clientset now name namespace t = Returned () (t ++ [r])
            ∧ (message r = "A ServiceAccount named '" +:+ name +:+ "' exists in the '"
                           +:+ namespace +:+ "' namespace."
               ∨ message r = "A ServiceAccount named '" +:+ name +:+ "' does not exist in the '"
                             +:+ namespace +:+ "' namespace."))
  ∧ (∀ name namespace role,
       GetRole clientset namespace name = inr role →
       ∃ r, RoleExists clientset now name namespace t = Returned () (t ++ [r])
            ∧ (message r = "A Role named '" +:+ name +:+ "' exists in the '"
                           +:+ namespace +:+ "' namespace."
               ∨ message r = "A Role named '" +:+ name +:+ "' does not exist in the '"
                             +:+ namespace +:+ "' namespace."))
  ∧ (∀ name namespace role,
       GetRoleBinding clientset namespace name = inr role →
       ∃ r, RoleBindingExists clientset now name namespace t = Returned () (t ++ [r])
            ∧ (message r = "A RoleBinding object named '" +:+ name +:+ "' exists in the '"
                           +:+ namespace +:+ "' namespace."
               ∨ message r = "A RoleBinding object named '" +:+ name
                             +:+ "' does not exist in the '" +:+ namespace +:+ "' namespace."))
  ∧ (∀ name role,
       GetClusterRole clientset name = inr role →
       ∃ r, ClusterRoleExists clientset now name t = Returned () (t ++ [r])
            ∧ (message r = "A ClusterRole named '" +:+ name +:+ "' exists."
               ∨ message r = "A ClusterRole named '" +:+ name +:+ "' does not exist."))
  ∧ (∀ name role,
       GetClusterRoleBinding clientset name = inr role →
       ∃ r, ClusterRoleBindingExists clientset now name t = Returned () (t ++ [r])
            ∧ (message r = "A ClusterRoleBinding object named '" +:+ name +:+ "' exists."
               ∨ message r = "A ClusterRoleBinding object named '" +:+ name
                             +:+ "' does not exist.")).
Proof.
  repeat apply conj.
  - intros namespace expectedCount deployments Hf.
    unfold ExpectedDeploymentCount. run_check. rewrite Hf.
    case_bool_decide; eexists; (split; [reflexivity |]); split.
    + occurs "The expected " (" exist in the '" +:+ namespace +:+ "' namespace.  Expected "
        +:+ pretty expectedCount +:+ ", got "
        +:+ pretty (Z.of_nat (length (Items deployments))) +:+ ".").
    + occurs ("The expected number of Deployments exist in the '" +:+ namespace
              +:+ "' namespace.  ") EmptyString.
    + occurs "An unexpected " (" exist in the '" +:+ namespace +:+ "' namespace.  Expected "
        +:+ pretty expectedCount +:+ ", got "
        +:+ pretty (Z.of_nat (length (Items deployments))) +:+ ".").
    + occurs ("An unexpected number of Deployments exist in the '" +:+ namespace
              +:+ "' namespace.  ") EmptyString.
  - intros name namespace deployment Hf.
    unfold DeploymentExists. run_check. rewrite Hf.
    case_bool_decide; eexists; (split; [reflexivity |]); split.
    + occurs EmptyString (" exists with the expected name.  Expected " +:+ name +:+ ", got "
        +:+ Name (Deployment_ObjectMeta deployment) +:+ ".").
    + occurs "Jenkins Deployment exists with the expected name.  " EmptyString.
    + occurs EmptyString (" does not exist with the expected name.  Expected " +:+ name
        +:+ ", got " +:+ Name (Deployment_ObjectMeta deployment) +:+ ".").
    + occurs "Jenkins Deployment does not exist with the expected name.  " EmptyString.
  - intros annotations name expectedValue.
    unfold AnnotationsEqual. run_check.
    case_bool_decide; eexists; (split; [reflexivity |]); split.
    + occurs EmptyString (" exists with its expected value.  Expected " +:+ expectedValue
        +:+ ", got " +:+ map_index annotations name +:+ ".").
    + occurs ("Annotation " +:+ name +:+ " exists with its expected value.  ") EmptyString.
    + occurs EmptyString (" does not exist with its expected value.  Expected "
        +:+ expectedValue +:+ ", got " +:+ map_index annotations name +:+ ".").
    + occurs ("Annotation " +:+ name +:+ " does not exist with its expected value.  ")
             EmptyString.
  - intros annotations name expectedPattern pattern Hc.
    unfold AnnotationsMatchPattern. run_check. rewrite Hc.
    destruct (MatchString pattern _); eexists; (split; [reflexivity |]); split.
    + occurs EmptyString (" exists and matches its expected pattern.  Expected "
        +:+ expectedPattern +:+ ", got " +:+ map_index annotations name +:+ ".").
    + occurs ("Annotation " +:+ name +:+ " exists and matches its expected pattern.  ")
             EmptyString.
    + occurs EmptyString (" does not exist and match its expected pattern.  Expected "
        +:+ expectedPattern +:+ ", got " +:+ map_index annotations name +:+ ".").
    + occurs ("Annotation " +:+ name +:+ " does not exist and match its expected pattern.  ")
             EmptyString.
  - intros conditions conditionType expectedStatus first others Hm.
    unfold ConditionStatusMet. rewrite collect_matches_filter, Hm. run_check.
    cbn [lookup list_lookup].
    case_bool_decide; eexists; (split; [reflexivity |]); split.
    + occurs EmptyString (" has its expected status.  Expected " +:+ expectedStatus
        +:+ ", got " +:+ cond_Status first +:+ ".").
    + occurs ("Deployment condition type " +:+ conditionType
              +:+ " has its expected status.  ") EmptyString.
    + occurs EmptyString (" does not have its expected status.  Expected " +:+ expectedStatus
        +:+ ", got " +:+ cond_Status first +:+ ".").
    + occurs ("Deployment condition type " +:+ conditionType
              +:+ " does not have its expected status.  ") EmptyString.
  - intros expectedReplicas actualReplicas description.
    unfold ReplicaCountAsExpected. run_check.
    case_bool_decide; eexists; (split; [reflexivity |]); repeat apply conj.
    + occurs EmptyString (" expected " +:+ description +:+ ".  Expected "
        +:+ pretty expectedReplicas +:+ ", got " +:+ pretty actualReplicas +:+ ".").
    + occurs "Jenkins Deployment has expected " (".  Expected "
        +:+ pretty expectedReplicas +:+ ", got " +:+ pretty actualReplicas +:+ ".").
    + occurs ("Jenkins Deployment has expected " +:+ description +:+ ".  ") EmptyString.
    + occurs EmptyString (" unexpected " +:+ description +:+ ".  Expected "
        +:+ pretty expectedReplicas +:+ ", got " +:+ pretty actualReplicas +:+ ".").
    + occurs "Jenkins Deployment has unexpected " (".  Expected "
        +:+ pretty expectedReplicas +:+ ", got " +:+ pretty actualReplicas +:+ ".").
    + occurs ("Jenkins Deployment has unexpected " +:+ description +:+ ".  ") EmptyString.
  - intros name namespace Hf. unfold NamespaceExists. run_check. rewrite Hf.
    case_bool_decide; eexists; (split; [reflexivity |]); [by left | by right].
  - intros name namespace serviceAccount Hf. unfold ServiceAccountExists. run_check.
    rewrite Hf. destruct (Before _ _); eexists; (split; [reflexivity |]);
      [by left | by right].
  - intros name namespace role Hf. unfold RoleExists. run_check.
    rewrite Hf. destruct (Before _ _); eexists; (split; [reflexivity |]);
      [by left | by right].
  - intros name namespace role Hf. unfold RoleBindingExists. run_check.
    rewrite Hf. destruct (Before _ _); eexists; (split; [reflexivity |]);
      [by left | by right].
  - intros name role Hf. unfold ClusterRoleExists. run_check.
    rewrite Hf. destruct (Before _ _); eexists; (split; [reflexivity |]);
      [by left | by right].
  - intros name role Hf. unfold ClusterRoleBindingExists. run_check.
    rewrite Hf. destruct (Before _ _); eexists; (split; [reflexivity |]);
      [by left | by right].
Qed.

(** The checks that depend on a fetch, a compiled pattern or a matching
    condition, each on an input where it reaches its report. *)
Lemma report_message_contents_witness :
  let cluster := uniform_cluster 3 "Active" 50 in
  (∃ r, ExpectedDeploymentCount cluster "prod" 4 [] = Returned () ([] ++ [r])
        ∧ Contains (message r) "Expected 4, got 3." = true)
  ∧ (∃ r, DeploymentExists cluster "jenkins" "prod" [] = Returned () ([] ++ [r])
          ∧ Contains (message r) "Expected jenkins, got jenkins." = true)
  ∧ (∃ r, AnnotationsMatchPattern (H := Fragment.regexp) jenkins_annotations
            "version" "v1\.2+" [] = Returned () ([] ++ [r])
          ∧ Contains (message r) "Expected v1\.2+, got v1.22." = true)
  ∧ (∃ r, ConditionStatusMet rollout "Available" "True" [] = Returned () ([] ++ [r])
          ∧ Contains (message r) "Expected True, got False." = true)
  ∧ (∃ r, NamespaceExists cluster "prod" [] = Returned () ([] ++ [r])
          ∧ (message r = "Cluster has a namespace named prod."
             ∨ message r = "Cluster does not have a namespace named prod."))
  ∧ (∃ r, ServiceAccountExists cluster 100 "jenkins" "prod" [] = Returned () ([] ++ [r])
          ∧ (message r = "A ServiceAccount named 'jenkins' exists in the 'prod' namespace."
             ∨ message r
               = "A ServiceAccount named 'jenkins' does not exist in the 'prod' namespace."))
  ∧ (∃ r, RoleExists cluster 100 "jenkins" "prod" [] = Returned () ([] ++ [r])
          ∧ (message r = "A Role named 'jenkins' exists in the 'prod' namespace."
             ∨ message r = "A Role named 'jenkins' does not exist in the 'prod' namespace."))
  ∧ (∃ r, RoleBindingExists cluster 100 "jenkins" "prod" [] = Returned () ([] ++ [r])
          ∧ (message r = "A RoleBinding object named 'jenkins' exists in the 'prod' namespace."
             ∨ message r
               = "A RoleBinding object named 'jenkins' does not exist in the 'prod' namespace."))
  ∧ (∃ r, ClusterRoleExists cluster 100 "jenkins" [] = Returned () ([] ++ [r])
          ∧ (message r = "A ClusterRole named 'jenkins' exists."
             ∨ message r = "A ClusterRole named 'jenkins' does not exist."))
  ∧ (∃ r, ClusterRoleBindingExists cluster 100 "jenkins" [] = Returned () ([] ++ [r])
          ∧ (message r = "A ClusterRoleBinding object named 'jenkins' exists."
             ∨ message r = "A ClusterRoleBinding object named 'jenkins' does not exist.")).
Proof.
  intros cluster.
  destruct (report_message_contents (H := Fragment.regexp) cluster 100 [])
    as (H1 & H2 & _ & H4 & H5 & _ & H7 & H8 & H9 & H10 & H11 & H12).
  repeat apply conj.
  - destruct (H1 "prod" 4 _ eq_refl) as (r & Hr & _ & Hc). exists r. by split.
  - destruct (H2 "jenkins" "prod" _ eq_refl) as (r & Hr & _ & Hc). exists r. by split.
  - destruct (Fragment.compile "v1\.2+") as [err | pattern] eqn:Hp; [discriminate Hp |].
    destruct (H4 jenkins_annotations "version" "v1\.2+" pattern Hp) as (r & Hr & _ & Hc).
    exists r. by split.
  - destruct (H5 rollout "Available" "True" _ [] eq_refl) as (r & Hr & _ & Hc).
    exists r. by split.
  - exact (H7 "prod" _ eq_refl).
  - exact (H8 "jenkins" "prod" _ eq_refl).
  - exact (H9 "jenkins" "prod" _ eq_refl).
  - exact (H10 "jenkins" "prod" _ eq_refl).
  - exact (H11 "jenkins" _ eq_refl).
  - exact (H12 "jenkins" _ eq_refl).
Defined.

(** * Further properties of the checks *)

Ltac unfold_checks :=
  unfold ExpectedDeploymentCount, DeploymentExists, AnnotationsEqual,
    AnnotationsMatchPattern, ConditionStatusMet, ReplicaCountAsExpected, NamespaceExists,
    ServiceAccountExists, RoleExists, RoleBindingExists, ClusterRoleExists,
    ClusterRoleBindingExists.

(** ** The deployment name check *)

Lemma DeploymentExists_iff_name
    (clientset : Clientset) (name namespace : string) (deployment : Deployment) (t : T) :
  GetDeployment clientset namespace name = inr deployment →
  ∃ r, DeploymentExists clientset name namespace t = Returned () (t ++ [r])
       ∧ (is_success r = true ↔ Name (Deployment_ObjectMeta deployment) = name).
Proof.
  intros Hf. unfold DeploymentExists. run_check. rewrite Hf.
  case_bool_decide; eexists; (split; [reflexivity |]); simpl; split; done.
Qed.

(** X1. [DeploymentExists] fetches the deployment by [name] and then
    compares the name of what it got with [name].  Against an API that
    returns objects under the name they were asked by, the failure branch
    is never taken: a call panics on a fetch error or reports success. *)
Theorem DeploymentExists_never_fails_on_faithful_api
    (clientset : Clientset) (name namespace : string) (t : T) :
  (∀ ns n d, GetDeployment clientset ns n = inr d → Name (Deployment_ObjectMeta d) = n) →
  (∃ err, GetDeployment clientset namespace name = inl err
          ∧ DeploymentExists clientset name namespace t = Panicked (PanicString err) t)
  ∨ (∃ r, DeploymentExists clientset name namespace t = Returned () (t ++ [r])
          ∧ is_success r = true).
Proof.
  intros Hfaithful.
  destruct (GetDeployment clientset namespace name) as [err | d] eqn:Hf.
  - left. exists err. split; [done |].
    unfold DeploymentExists. run_check. by rewrite Hf.
  - right. destruct (DeploymentExists_iff_name _ _ _ _ t Hf) as (r & Hr & Hs).
    exists r. split; [exact Hr |]. apply Hs. exact (Hfaithful _ _ _ Hf).
Qed.

Lemma DeploymentExists_never_fails_on_faithful_api_witness :
  ∃ r, DeploymentExists (uniform_cluster 3 "Active" 50) "jenkins" "prod" []
       = Returned () ([] ++ [r])
       ∧ is_success r = true.
Proof.
  destruct (DeploymentExists_never_fails_on_faithful_api
              (uniform_cluster 3 "Active" 50) "jenkins" "prod" [])
    as [(err & Hf & _) | Hok].
  - intros ns n d Hd. injection Hd as <-. reflexivity.
  - discriminate Hf.
  - exact Hok.
Defined.

(** ** The condition status check: first match, no match *)

Lemma filter_no_match (conditions : list DeploymentCondition) (conditionType : string) :
  Forall (λ c, cond_Type c ≠ conditionType) conditions →
  filter (λ c, cond_Type c = conditionType) conditions = [].
Proof.
  induction 1 as [|c cs Hc _ IH]; [done |].
  rewrite filter_cons. by case_decide.
Qed.

Lemma filter_first_match
    (before after : list DeploymentCondition) (first : DeploymentCondition)
    (conditionType : string) :
  Forall (λ c, cond_Type c ≠ conditionType) before →
  cond_Type first = conditionType →
  filter (λ c, cond_Type c = conditionType) (before ++ first :: after)
  = first :: filter (λ c, cond_Type c = conditionType) after.
Proof.
  intros Hbefore Hfirst.
  rewrite filter_app, (filter_no_match _ _ Hbefore), filter_cons.
  by case_decide.
Qed.

(** A list has no condition of the requested type, or it has a first one. *)
Lemma first_match_split (conditions : list DeploymentCondition) (conditionType : string) :
  Forall (λ c, cond_Type c ≠ conditionType) conditions
  ∨ ∃ before first after,
      conditions = before ++ first :: after
      ∧ Forall (λ c, cond_Type c ≠ conditionType) before
      ∧ cond_Type first = conditionType.
Proof.
  induction conditions as [|c cs IH]; [by left |].
  destruct (decide (cond_Type c = conditionType)) as [Hc | Hc].
  - right. by exists [], c, cs.
  - destruct IH as [Hall | (before & first & after & -> & Hb & Hf)].
    + left. by constructor.
    + right. exists (c :: before), first, after. repeat split; [by constructor | done].
Qed.

Lemma ConditionStatusMet_on_matches
    (conditions others : list DeploymentCondition) (first : DeploymentCondition)
    (conditionType expectedStatus : string) (t : T) :
  filter (λ c, cond_Type c = conditionType) conditions = first :: others →
  ConditionStatusMet conditions conditionType expectedStatus t
  = Returned ()
      (t ++ [if bool_decide (cond_Status first = expectedStatus)
             then LogRecord
                    (Sprintf
                       "Deployment condition type %v has its expected status.  Expected %v, got %v."
                       [VString conditionType; VString expectedStatus;
                        VString (cond_Status first)])
             else ErrorRecord
                    (Sprintf
                       "Deployment condition type %v does not have its expected status.  Expected %v, got %v."
                       [VString conditionType; VString expectedStatus;
                        VString (cond_Status first)])]).
Proof.
  intros Hm. unfold ConditionStatusMet. rewrite collect_matches_filter, Hm.
  run_check. cbn [lookup list_lookup]. by case_bool_decide.
Qed.

Lemma ConditionStatusMet_no_match
    (conditions : list DeploymentCondition) (conditionType expectedStatus : string) (t : T) :
  Forall (λ c, cond_Type c ≠ conditionType) conditions →
  ConditionStatusMet conditions conditionType expectedStatus t
  = Panicked (IndexOutOfRange 0 0) t.
Proof.
  intros Hall. unfold ConditionStatusMet.
  by rewrite collect_matches_filter, (filter_no_match _ _ Hall).
Qed.

(** X2. Only the first condition of the requested type counts: whatever
    comes before it (of other types) and whatever comes after it (even a
    condition of the same type with another status), the check does what it
    does on that condition alone, a success exactly when its status is the
    expected one. *)
Theorem ConditionStatusMet_first_match
    (before after : list DeploymentCondition) (first : DeploymentCondition)
    (conditionType expectedStatus : string) (t : T) :
  Forall (λ c, cond_Type c ≠ conditionType) before →
  cond_Type first = conditionType →
  ConditionStatusMet (before ++ first :: after) conditionType expectedStatus t
  = ConditionStatusMet [first] conditionType expectedStatus t
  ∧ ∃ r, ConditionStatusMet (before ++ first :: after) conditionType expectedStatus t
         = Returned () (t ++ [r])
         ∧ (is_success r = true ↔ cond_Status first = expectedStatus).
Proof.
  intros Hbefore Hfirst.
  rewrite (ConditionStatusMet_on_matches _ _ first _ _ _
             (filter_first_match before after first _ Hbefore Hfirst)).
  rewrite (ConditionStatusMet_on_matches [first] [] first _ _ _
             (filter_first_match [] [] first _ (Forall_nil_2 _) Hfirst)).
  split; [done |].
  case_bool_decide; eexists; (split; [reflexivity |]); simpl; split; done.
Qed.

(** Two [Available] conditions that disagree: the earlier one decides. *)
Lemma ConditionStatusMet_first_match_witness :
  ∃ r, ConditionStatusMet
         (rollout ++ [{| cond_Type := "Available"; cond_Status := "True" |}])
         "Available" "True" []
       = Returned () ([] ++ [r])
       ∧ is_success r = false.
Proof.
  destruct (ConditionStatusMet_first_match
              [{| cond_Type := "Progressing"; cond_Status := "True" |}]
              [{| cond_Type := "Available"; cond_Status := "True" |}]
              {| cond_Type := "Available"; cond_Status := "False" |}
              "Available" "True" [])
    as (_ & r & Hr & Hs).
  - repeat constructor. discriminate.
  - reflexivity.
  - exists r. split; [exact Hr |].
    destruct (is_success r); [| done]. discriminate (proj1 Hs eq_refl).
Defined.

(** X3. The condition status check panics exactly when no condition of the
    list has the requested type (so always on the empty list), with the
    index error for index 0 and length 0; it returns, after one record,
    exactly when some condition has the requested type. *)
Theorem ConditionStatusMet_panics_iff_no_match
    (conditions : list DeploymentCondition) (conditionType expectedStatus : string) (t : T) :
  (ConditionStatusMet conditions conditionType expectedStatus t
   = Panicked (IndexOutOfRange 0 0) t
   ↔ Forall (λ c, cond_Type c ≠ conditionType) conditions)
  ∧ ((∃ r, ConditionStatusMet conditions conditionType expectedStatus t
           = Returned () (t ++ [r]))
     ↔ Exists (λ c, cond_Type c = conditionType) conditions)
  ∧ ConditionStatusMet [] conditionType expectedStatus t = Panicked (IndexOutOfRange 0 0) t.
Proof.
  pose proof (first_match_split conditions conditionType) as Hsplit.
  split; [| split; [| reflexivity]].
  - split; [| apply ConditionStatusMet_no_match].
    intros Hp. destruct Hsplit as [Hall | (before & first & after & -> & Hb & Hf)]; [done |].
    rewrite (ConditionStatusMet_on_matches _ _ first _ _ _
               (filter_first_match before after first _ Hb Hf)) in Hp.
    discriminate Hp.
  - split.
    + intros [r Hr]. destruct Hsplit as [Hall | (before & first & after & -> & Hb & Hf)].
      * rewrite (ConditionStatusMet_no_match _ _ _ _ Hall) in Hr. discriminate Hr.
      * apply Exists_app. right. by constructor.
    + intros Hex. destruct Hsplit as [Hall | (before & first & after & -> & Hb & Hf)].
      * exfalso. apply Exists_exists in Hex as (c & Hin & Hc).
        rewrite Forall_forall in Hall. by apply (Hall c).
      * rewrite (ConditionStatusMet_on_matches _ _ first _ _ _
                   (filter_first_match before after first _ Hb Hf)).
        eauto.
Qed.

(** ** Why a check panics *)

(** X4. The package panics for three reasons only, and always before any
    record is written: an error from the API client, in the eight checks
    that fetch, with that error's message as the panic value; an error from
    [regexp.Compile] in the pattern check, likewise; and, in the condition
    status check, the index error when no condition has the requested
    type.  [AnnotationsEqual] and [ReplicaCountAsExpected] never panic. *)
Theorem panic_causes `{RegexpLib}
    (clientset : Clientset) (now : Time) (c : invocation) (t t' : T) (v : panic_value) :
  call clientset now c t = Panicked v t' →
  t' = t
  ∧ match c with
    | CallExpectedDeploymentCount namespace _ =>
        ∃ err, ListDeployments clientset namespace = inl err ∧ v = PanicString err
    | CallDeploymentExists name namespace =>
        ∃ err, GetDeployment clientset namespace name = inl err ∧ v = PanicString err
    | CallAnnotationsEqual _ _ _ => False
    | CallAnnotationsMatchPattern _ _ expectedPattern =>
        ∃ err, Compile expectedPattern = inl err ∧ v = PanicString err
    | CallConditionStatusMet conditions conditionType _ =>
        Forall (λ c, cond_Type c ≠ conditionType) conditions ∧ v = IndexOutOfRange 0 0
    | CallReplicaCountAsExpected _ _ _ => False
    | CallNamespaceExists name =>
        ∃ err, GetNamespace clientset name = inl err ∧ v = PanicString err
    | CallServiceAccountExists name namespace =>
        ∃ err, GetServiceAccount clientset namespace name = inl err ∧ v = PanicString err
    | CallRoleExists name namespace =>
        ∃ err, GetRole clientset namespace name = inl err ∧ v = PanicString err
    | CallRoleBindingExists name namespace =>
        ∃ err, GetRoleBinding clientset namespace name = inl err ∧ v = PanicString err
    | CallClusterRoleExists name =>
        ∃ err, GetClusterRole clientset name = inl err ∧ v = PanicString err
    | CallClusterRoleBindingExists name =>
        ∃ err, GetClusterRoleBinding clientset name = inl err ∧ v = PanicString err
    end.
Proof.
  destruct c; simpl;
    try (unfold_checks; run_check;
         repeat match goal with
           | |- context [match ?f with inl _ => _ | inr _ => _ end] => destruct f eqn:?
           | |- context [if ?b then _ else _] => destruct b
           end;
         intros Hp; try discriminate Hp; injection Hp as <- <-; eauto; fail).
  destruct (first_match_split conditions conditionType)
    as [Hall | (before & first & after & -> & Hb & Hf)].
  - rewrite (ConditionStatusMet_no_match _ _ _ _ Hall). by intros [= <- <-].
  - rewrite (ConditionStatusMet_on_matches _ _ first _ _ _
               (filter_first_match before after first _ Hb Hf)).
    discriminate.
Qed.

(** A pattern with an unclosed group, on the engine of the fragment. *)
Lemma panic_causes_witness :
  [] = ([] : T)
  ∧ ∃ err, Fragment.compile "(v1" = inl err
           ∧ PanicString "error parsing regexp: missing closing ): `(v1`" = PanicString err.
Proof.
  exact (panic_causes (H := Fragment.regexp) (unreachable "connection refused") 0
           (CallAnnotationsMatchPattern jenkins_annotations "version" "(v1")
           [] [] _ eq_refl).
Defined.

(** ** The checks do not read the test handle *)

(** X5. What a check does never depends on what the test handle already
    holds: on a handle [t] it panics or returns as on a fresh handle, with
    the same panic value, and the handle it leaves is [t] followed by what
    it leaves on the fresh one.  Earlier records are kept as they are, in
    their order. *)
Theorem call_frame `{RegexpLib} (clientset : Clientset) (now : Time) (c : invocation) (t : T) :
  call clientset now c t
  = match call clientset now c [] with
    | Returned a t' => Returned a (t ++ t')
    | Panicked v t' => Panicked v (t ++ t')
    end.
Proof.
  destruct c; simpl; unfold_checks; run_check;
    repeat match goal with
      | |- context [match ?f with inl _ => _ | inr _ => _ end] => destruct f
      | |- context [match ?l !! ?i with Some _ => _ | None => _ end] => destruct (l !! i)
      | |- context [if ?b then _ else _] => destruct b
      end;
    by rewrite ?app_nil_r.
Qed.

(** ** Edge cases of the value checks *)

(** X6. A key that is missing from the annotations cannot be told from a
    key bound to the empty string: on a map without the key the equality
    check succeeds exactly when the expected value is the empty string, and
    its message shows an empty actual value. *)
Theorem AnnotationsEqual_missing_key
    (annotations : gmap string string) (name expectedValue : string) (t : T) :
  annotations !! name = None →
  ∃ r, AnnotationsEqual annotations name expectedValue t = Returned () (t ++ [r])
       ∧ (is_success r = true ↔ expectedValue = EmptyString)
       ∧ Contains (message r) ("Expected " +:+ expectedValue +:+ ", got .") = true.
Proof.
  intros Hnone. unfold AnnotationsEqual, map_index. rewrite Hnone. run_check. cbn [default].
  case_bool_decide; eexists; (split; [reflexivity |]); (split; [by split |]).
  - occurs ("Annotation " +:+ name +:+ " exists with its expected value.  ") EmptyString.
  - occurs ("Annotation " +:+ name +:+ " does not exist with its expected value.  ")
           EmptyString.
Qed.

Lemma AnnotationsEqual_missing_key_witness :
  (∃ r, AnnotationsEqual jenkins_annotations "team" "" [] = Returned () ([] ++ [r])
        ∧ is_success r = true)
  ∧ (∃ r, AnnotationsEqual ∅ "team" "platform" [] = Returned () ([] ++ [r])
          ∧ is_success r = false
          ∧ Contains (message r) "Expected platform, got ." = true).
Proof.
  split.
  - destruct (AnnotationsEqual_missing_key jenkins_annotations "team" "" [] eq_refl)
      as (r & Hr & Hs & _).
    exists r. split; [exact Hr | by apply Hs].
  - destruct (AnnotationsEqual_missing_key ∅ "team" "platform" [] (lookup_empty "team"))
      as (r & Hr & Hs & Hc).
    exists r. split; [exact Hr |]. split; [| exact Hc].
    destruct (is_success r); [| done]. discriminate (proj1 Hs eq_refl).
Defined.

(** X7. The actual count is a length: when the list is fetched, a negative
    expected count always gets a failure, and on a namespace without
    deployments the check succeeds exactly when the expected count is 0. *)
Theorem ExpectedDeploymentCount_negative_or_empty
    (clientset : Clientset) (namespace : string) (expectedCount : Z)
    (deployments : DeploymentList) (t : T) :
  ListDeployments clientset namespace = inr deployments →
  ∃ r, ExpectedDeploymentCount clientset namespace expectedCount t = Returned () (t ++ [r])
       ∧ (expectedCount < 0 → is_success r = false)
       ∧ (Items deployments = [] → (is_success r = true ↔ expectedCount = 0)).
Proof.
  intros Hf. unfold ExpectedDeploymentCount. run_check. rewrite Hf.
  case_bool_decide as Hc; eexists; (split; [reflexivity |]); simpl; split.
  - lia.
  - intros Hnil. rewrite Hnil in Hc. simpl in Hc. by split.
  - done.
  - intros Hnil. rewrite Hnil in Hc. simpl in Hc. split; [done | intros ->; done].
Qed.

Lemma ExpectedDeploymentCount_negative_or_empty_witness :
  (∃ r, ExpectedDeploymentCount (uniform_cluster 3 "Active" 50) "prod" (-1) []
        = Returned () ([] ++ [r])
        ∧ is_success r = false)
  ∧ (∃ r, ExpectedDeploymentCount (uniform_cluster 0 "Active" 50) "prod" 0 []
          = Returned () ([] ++ [r])
          ∧ is_success r = true).
Proof.
  split.
  - destruct (ExpectedDeploymentCount_negative_or_empty
                (uniform_cluster 3 "Active" 50) "prod" (-1) _ [] eq_refl)
      as (r & Hr & Hneg & _).
    exists r. split; [exact Hr | apply Hneg; lia].
  - destruct (ExpectedDeploymentCount_negative_or_empty
                (uniform_cluster 0 "Active" 50) "prod" 0 _ [] eq_refl)
      as (r & Hr & _ & Hempty).
    exists r. split; [exact Hr | by apply (Hempty eq_refl)].
Defined.

(** ** The clock *)

(** X8. Only the five checks by creation timestamp read the clock, and
    they compare with it in one direction: against a cluster that gives
    the same answers, a call that reported success reports the same
    success at every later instant. *)
Theorem success_persists_as_time_passes `{RegexpLib}
    (clientset : Clientset) (now now' : Time) (c : invocation) (t : T) (r : record) :
  now ≤ now' →
  call clientset now c t = Returned () (t ++ [r]) →
  is_success r = true →
  call clientset now' c t = Returned () (t ++ [r]).
Proof.
  intros Hle.
  destruct c; simpl; try (by intros Hr _);
    unfold_checks; run_check;
    match goal with
    | |- context [match ?f with inl _ => _ | inr _ => _ end] => destruct f
    end; try done;
    unfold Before, time_Before;
    case_bool_decide as Hnow.
  all: try (intros Hr _; rewrite bool_decide_true by lia; exact Hr).
  all: intros [= Hr]; apply app_inj_tail in Hr as [_ <-]; done.
Qed.

(** A role created at instant 50 passes at instant 51 and at instant 200. *)
Lemma success_persists_as_time_passes_witness :
  call (H := Fragment.regexp) (uniform_cluster 3 "Active" 50) 200
    (CallRoleExists "jenkins" "prod") []
  = Returned () ([] ++ [LogRecord "A Role named 'jenkins' exists in the 'prod' namespace."]).
Proof.
  apply (success_persists_as_time_passes (H := Fragment.regexp)
           (uniform_cluster 3 "Active" 50) 51 200);
    [lia | reflexivity | reflexivity].
Defined.
